(** * Product API (services/product-api/app.py)

    A shallow embedding of the Flask handlers of the product service and
    the properties of its in-memory catalogue.

    The handlers are modelled as functions from the shared state (the
    module-level [products] list and [app_state] dict) to the value the
    Python function returns, or the exception it raises, together with the
    state it leaves behind.  Values obtained from [request.get_json()] are
    Python objects of the JSON fragment: [None], booleans, integers, floats,
    strings, lists and dicts keyed by strings. *)

From Stdlib Require Import ZArith Ascii Floats.SpecFloat.
From stdpp Require Import gmap strings list fin_maps pretty.

#[local] Set Warnings "-register-all".
#[local] Open Scope Z_scope.

(** ** Python values *)

(** Python floats are IEEE 754 binary64 numbers. *)
Abbreviation float := spec_float.

Definition prec : Z := 53.
Definition emax : Z := 1024.

(** The binary64 number nearest to [m * 2^e] (ties to even). *)
Definition b64 (m e : Z) : float := binary_normalize prec emax m e false.

(** The float denoted by the decimal literal [m / 10^k], for [m] and
    [10^k] below [2^53]: both are exact and the quotient is rounded once. *)
Definition float_lit (m : Z) (k : Z) : float :=
  SFdiv prec emax (b64 m 0) (b64 (10 ^ k) 0).

Inductive value :=
| VNone
| VBool (b : bool)
| VInt (n : Z)
| VFloat (f : float)
| VStr (s : string)
| VList (l : list value)
| VDict (d : gmap string value).

Inductive exn := TypeError | ValueError | OverflowError | KeyError.

(** An expression either evaluates to a value or raises. *)
Inductive result (A : Type) :=
| Ok (a : A)
| Raise (e : exn).
Arguments Ok {A} a.
Arguments Raise {A} e.

Definition bind {A B} (r : result A) (k : A -> result B) : result B :=
  match r with
  | Ok a => k a
  | Raise e => Raise e
  end.

Notation "x <- r ;; k" := (bind r (fun x => k))
  (at level 100, r at next level, right associativity).

(** What the interpreter and its library provide and the service only
    calls: the clock type with its renderings, the formatting of a float
    in an f-string, and the parsers behind [float(str)] and [int(str)]
    ([None] where they raise [ValueError]). *)
Class Runtime := {
  datetime : Type;
  isoformat : datetime -> string;
  total_seconds : datetime -> datetime -> float;
  float_str : float -> string;
  float_of_str : string -> option float;
  int_of_str : string -> option Z;
}.

(** [sub in s] on strings. *)
Fixpoint str_contains (s sub : string) : bool :=
  String.prefix sub s ||
  match s with
  | EmptyString => false
  | String _ s' => str_contains s' sub
  end.

(** [field in data] for a string [field]. *)
Definition py_in (field : string) (data : value) : result bool :=
  match data with
  | VDict d => Ok (bool_decide (is_Some (d !! field)))
  | VList l =>
      Ok (existsb (fun v => match v with
                            | VStr s => bool_decide (s = field)
                            | _ => false
                            end) l)
  | VStr s => Ok (str_contains s field)
  | VNone | VBool _ | VInt _ | VFloat _ => Raise TypeError
  end.

(** [data[key]] for a string [key]. *)
Definition py_getitem (data : value) (key : string) : result value :=
  match data with
  | VDict d =>
      match d !! key with
      | Some v => Ok v
      | None => Raise KeyError
      end
  | _ => Raise TypeError
  end.

(** [all(field in data for field in fields)]: stops at the first field
    that is absent. *)
Fixpoint py_all_in (data : value) (fields : list string) : result bool :=
  match fields with
  | [] => Ok true
  | field :: rest =>
      b <- py_in field data ;;
      if b : bool then py_all_in data rest else Ok false
  end.

(** [int(f)] for a float: truncation towards zero. *)
Definition float_trunc (f : float) : result Z :=
  match f with
  | S754_zero _ => Ok 0
  | S754_infinity _ => Raise OverflowError
  | S754_nan => Raise ValueError
  | S754_finite s m e =>
      let a := Z.shiftl (Z.pos m) e in
      Ok (if s then - a else a)
  end.

(** [float(n)] for an integer. *)
Definition float_of_int (n : Z) : result float :=
  match b64 n 0 with
  | S754_infinity _ => Raise OverflowError
  | f => Ok f
  end.

Section builtins.
Context `{RT : Runtime}.

(** [float(v)] *)
Definition py_float (v : value) : result float :=
  match v with
  | VFloat f => Ok f
  | VInt n => float_of_int n
  | VBool b => float_of_int (Z.b2z b)
  | VStr s =>
      match float_of_str s with
      | Some f => Ok f
      | None => Raise ValueError
      end
  | VNone | VList _ | VDict _ => Raise TypeError
  end.

(** [int(v)] *)
Definition py_int (v : value) : result Z :=
  match v with
  | VInt n => Ok n
  | VBool b => Ok (Z.b2z b)
  | VFloat f => float_trunc f
  | VStr s =>
      match int_of_str s with
      | Some n => Ok n
      | None => Raise ValueError
      end
  | VNone | VList _ | VDict _ => Raise TypeError
  end.
End builtins.

(** ** Responses *)

(** A handler returns a tuple [(body, status)] or [(body, status, headers)];
    the body is either the object handed to [jsonify] or plain text. *)
Inductive body :=
| Json (v : value)
| Text (s : string).

Record response := Resp {
  resp_body : body;
  status : Z;
  headers : list (string * string);
}.

Inductive outcome :=
| Returned (r : response)
| Raised (e : exn).

Definition status_of (o : outcome) : option Z :=
  match o with
  | Returned r => Some (status r)
  | Raised _ => None
  end.

(** ** The in-memory database *)

(** A stored product is a dict with the four keys [id], [name], [price]
    and [stock]; [name] is whatever object the request carried. *)
Record product := Product {
  id : Z;
  name : value;
  price : float;
  stock : Z;
}.

(** The dict a product record is, as [jsonify] receives it. *)
Definition product_dict (p : product) : value :=
  VDict {[ "id" := VInt (id p);
           "name" := name p;
           "price" := VFloat (price p);
           "stock" := VInt (stock p) ]}.

Definition seed_products : list product :=
  [ Product 1 (VStr "Laptop") (float_lit 99999 2) 50;
    Product 2 (VStr "Mouse") (float_lit 2999 2) 200;
    Product 3 (VStr "Keyboard") (float_lit 7999 2) 150;
    Product 4 (VStr "Monitor") (float_lit 29999 2) 75;
    Product 5 (VStr "Webcam") (float_lit 8999 2) 100 ].

(** [max(xs)] on a non-empty list of integers, [x] being its head. *)
Definition py_max (x : Z) (xs : list Z) : Z := fold_left Z.max xs x.

(** [max([p['id'] for p in products]) + 1 if products else 1] *)
Definition next_id (ps : list product) : Z :=
  match ps with
  | [] => 1
  | p :: ps' => py_max (id p) (map id ps') + 1
  end.

Definition required : list string := ["name"; "price"; "stock"].

Definition dquote : string := String "034"%char EmptyString.
Definition newline : string := String "010"%char EmptyString.

Section app.
Context `{RT : Runtime}.

Record app_state_t := AppState {
  startup_time : datetime;
  is_ready : bool;
}.

Record state := State {
  products : list product;
  app_state : app_state_t;
}.

(** The module state once the file has been imported at time [t0]. *)
Definition init (t0 : datetime) : state :=
  State seed_products (AppState t0 true).

(** [GET /health] *)
Definition health (now : datetime) (st : state) : outcome * state :=
  (Returned (Resp (Json (VDict {[ "status" := VStr "healthy";
                                  "service" := VStr "product-api";
                                  "timestamp" := VStr (isoformat now) ]}))
                  200 []), st).

(** [GET /ready] *)
Definition ready (st : state) : outcome * state :=
  if negb (is_ready (app_state st)) then
    (Returned (Resp (Json (VDict {[ "status" := VStr "not ready" ]})) 503 []), st)
  else
    (Returned (Resp (Json (VDict {[ "status" := VStr "ready";
                                    "service" := VStr "product-api" ]}))
                    200 []), st).

(** [GET /api/products]; the simulated delay does not touch the state. *)
Definition get_products (st : state) : outcome * state :=
  (Returned (Resp (Json (VDict {[ "success" := VBool true;
                                  "count" := VInt (Z.of_nat (length (products st)));
                                  "products" := VList (map product_dict (products st)) ]}))
                  200 []), st).

(** [GET /api/products/<int:product_id>]; [find] is
    [next((p for p in products if p['id'] == product_id), None)], and a
    record found is a non-empty dict, hence true. *)
Definition get_product (product_id : Z) (st : state) : outcome * state :=
  match find (fun p => id p =? product_id) (products st) with
  | Some product =>
      (Returned (Resp (Json (VDict {[ "success" := VBool true;
                                      "product" := product_dict product ]}))
                      200 []), st)
  | None =>
      (Returned (Resp (Json (VDict {[ "success" := VBool false;
                                      "error" := VStr "Product not found" ]}))
                      404 []), st)
  end.

(** The dict literal bound to [new_product]: its values are evaluated in
    the order written. *)
Definition new_product (data : value) (ps : list product) : result product :=
  let i := next_id ps in
  n <- py_getitem data "name" ;;
  p <- (v <- py_getitem data "price" ;; py_float v) ;;
  s <- (v <- py_getitem data "stock" ;; py_int v) ;;
  Ok (Product i n p s).

(** [POST /api/products], [data] being [request.get_json()]. *)
Definition create_product (data : value) (st : state) : outcome * state :=
  match py_all_in data required with
  | Raise e => (Raised e, st)
  | Ok false =>
      (Returned (Resp (Json (VDict {[ "success" := VBool false;
                                      "error" := VStr "Missing required fields" ]}))
                      400 []), st)
  | Ok true =>
      match new_product data (products st) with
      | Raise e => (Raised e, st)
      | Ok p =>
          (Returned (Resp (Json (VDict {[ "success" := VBool true;
                                          "product" := product_dict p ]}))
                          201 []),
           State (products st ++ [p]) (app_state st))
      end
  end.

(** [GET /metrics]; [rnd] is the draw of [random.randint(100, 1000)]. *)
Definition metrics (now : datetime) (rnd : Z) (st : state) : outcome * state :=
  let uptime := total_seconds now (startup_time (app_state st)) in
  let metrics_output :=
    "# HELP http_requests_total Total HTTP requests" +:+ newline +:+
    "# TYPE http_requests_total counter" +:+ newline +:+
    "http_requests_total{service=" +:+ dquote +:+ "product-api" +:+ dquote +:+
    ",method=" +:+ dquote +:+ "GET" +:+ dquote +:+ "} " +:+ pretty rnd +:+ newline +:+
    newline +:+
    "# HELP products_total Total number of products" +:+ newline +:+
    "# TYPE products_total gauge" +:+ newline +:+
    "products_total " +:+ pretty (length (products st)) +:+ newline +:+
    newline +:+
    "# HELP app_uptime_seconds Application uptime" +:+ newline +:+
    "# TYPE app_uptime_seconds gauge" +:+ newline +:+
    "app_uptime_seconds " +:+ float_str uptime +:+ newline in
  (Returned (Resp (Text metrics_output) 200 [("Content-Type", "text/plain")]), st).

(** [GET /] *)
Definition index (st : state) : outcome * state :=
  (Returned (Resp (Json (VDict {[ "service" := VStr "Product API";
                                  "version" := VStr "1.0.0";
                                  "endpoints" :=
                                    VDict {[ "health" := VStr "/health";
                                             "ready" := VStr "/ready";
                                             "products" := VStr "/api/products";
                                             "metrics" := VStr "/metrics" ]} ]}))
                  200 []), st).

(** ** Requests and runs *)

(** A routed request, with what the handler reads from outside the
    state: the clock and the random draw. *)
Inductive request :=
| GET_health (now : datetime)
| GET_ready
| GET_products
| GET_product (product_id : Z)
| POST_products (data : value)
| GET_metrics (now : datetime) (rnd : Z)
| GET_index.

Definition handle (r : request) (st : state) : outcome * state :=
  match r with
  | GET_health now => health now st
  | GET_ready => ready st
  | GET_products => get_products st
  | GET_product product_id => get_product product_id st
  | POST_products data => create_product data st
  | GET_metrics now rnd => metrics now rnd st
  | GET_index => index st
  end.

(** Requests served one after the other: the outcomes in order and the
    final state. *)
Fixpoint run (rs : list request) (st : state) : list outcome * state :=
  match rs with
  | [] => ([], st)
  | r :: rs' =>
      let '(o, st1) := handle r st in
      let '(os, st2) := run rs' st1 in
      (o :: os, st2)
  end.

(** The count a [GET /api/products] reports. *)
Definition reported_count (st : state) : option value :=
  match fst (get_products st) with
  | Returned (Resp (Json (VDict d)) _ _) => d !! "count"
  | _ => None
  end.

(** The outcomes that are a 201 of the create endpoint. *)
Definition is_created (o : outcome) : bool :=
  match status_of o with
  | Some 201 => true
  | _ => false
  end.
End app.

(** ** Routing and valid bodies *)

(** What the service answers to a request: the outcome of the handler
    the route leads to, or, when no route matches, the framework's own
    404 page, for which no handler runs. *)
Inductive served :=
| Handled (o : outcome)
| NotRouted.

Definition served_status (a : served) : option Z :=
  match a with
  | Handled o => status_of o
  | NotRouted => Some 404
  end.

Definition is_ok {A} (r : result A) : bool :=
  match r with
  | Ok _ => true
  | Raise _ => false
  end.

Section routing.
Context `{RT : Runtime}.

(** [GET /api/products/<product_id>] for an integer written in decimal
    in the URL.  The rule [/api/products/<int:product_id>] takes a run of
    digits: a negative id, written with a minus sign, matches no rule and
    [get_product] is not called. *)
Definition route_get_product (product_id : Z) (st : state)
    : served * state :=
  if 0 <=? product_id then
    (Handled (fst (get_product product_id st)),
     snd (get_product product_id st))
  else (NotRouted, st).

(** A body the create endpoint takes: an object holding name, price and
    stock, with a price [float] converts and a stock [int] converts. *)
Definition valid_body (data : value) : bool :=
  match data with
  | VDict d =>
      match d !! "name", d !! "price", d !! "stock" with
      | Some _, Some vp, Some vs => is_ok (py_float vp) && is_ok (py_int vs)
      | _, _, _ => false
      end
  | _ => false
  end.

(** The requests that are a create with such a body. *)
Definition valid_create (r : request) : bool :=
  match r with
  | POST_products data => valid_body data
  | _ => false
  end.
End routing.

(** ** A runtime for examples *)

(** The value of a run of decimal digits. *)
Fixpoint digits_value (acc : Z) (s : string) : option Z :=
  match s with
  | EmptyString => Some acc
  | String c s' =>
      let n := Z.of_nat (nat_of_ascii c) in
      if (48 <=? n) && (n <=? 57) then digits_value (10 * acc + (n - 48)) s'
      else None
  end.

Definition decimal_of_str (s : string) : option Z :=
  match s with
  | EmptyString => None
  | _ => digits_value 0 s
  end.

(** A small runtime on which the model runs: the clock counts
    microseconds, and the only strings that convert are non-empty runs of
    decimal digits.  The properties below hold for every runtime; this one
    serves to evaluate the handlers on concrete requests. *)
Definition test_runtime : Runtime := {|
  datetime := Z;
  isoformat := pretty;
  total_seconds := fun a b => SFdiv prec emax (b64 (a - b) 0) (b64 (10 ^ 6) 0);
  float_str := fun f =>
    match f with
    | S754_finite s m e =>
        (if s then "-" else "") +:+ pretty (Z.pos m) +:+ "*2**" +:+ pretty e
    | S754_zero s => if s then "-0.0" else "0.0"
    | S754_infinity s => if s then "-inf" else "inf"
    | S754_nan => "nan"
    end;
  float_of_str := fun s =>
    match decimal_of_str s with
    | Some n =>
        match float_of_int n with
        | Ok f => Some f
        | Raise _ => None
        end
    | None => None
    end;
  int_of_str := decimal_of_str;
|}.

(** The body of the create scenario: [{"name": "Pen", "price": 1.99,
    "stock": 500}]. *)
Definition pen_fields : gmap string value :=
  {[ "name" := VStr "Pen";
     "price" := VFloat (float_lit 199 2);
     "stock" := VInt 500 ]}.

Definition pen_body : value := VDict pen_fields.

(** The record that scenario creates on the seeded collection. *)
Definition pen : product := Product 6 (VStr "Pen") (float_lit 199 2) 500.

(** A body whose price is JSON [null]:
    [{"name": "Pen", "price": null, "stock": 500}]. *)
Definition null_price_fields : gmap string value :=
  {[ "name" := VStr "Pen";
     "price" := VNone;
     "stock" := VInt 500 ]}.

Definition null_price_body : value := VDict null_price_fields.

(** A body with a name only: [{"name": "Pen"}]. *)
Definition name_only_fields : gmap string value :=
  {[ "name" := VStr "Pen" ]}.

(** The service on the example runtime, imported at time 0, and the state
    the create scenario leaves. *)
Definition test_init : state (RT := test_runtime) :=
  init (RT := test_runtime) 0.

Definition test_init_pen : state (RT := test_runtime) :=
  State (RT := test_runtime) (seed_products ++ [pen])
        (AppState (RT := test_runtime) 0 true).

(** ** Named responses *)

Definition created_response (p : product) : outcome :=
  Returned (Resp (Json (VDict {[ "success" := VBool true;
                                 "product" := product_dict p ]})) 201 []).

Definition found_response (p : product) : outcome :=
  Returned (Resp (Json (VDict {[ "success" := VBool true;
                                 "product" := product_dict p ]})) 200 []).

Definition not_found_response : outcome :=
  Returned (Resp (Json (VDict {[ "success" := VBool false;
                                 "error" := VStr "Product not found" ]})) 404 []).

Definition missing_fields_response : outcome :=
  Returned (Resp (Json (VDict {[ "success" := VBool false;
                                 "error" := VStr "Missing required fields" ]})) 400 []).

(** [p] is the first record of [ps] whose id is [i]. *)
Definition first_match (i : Z) (p : product) (ps : list product) : Prop :=
  ∃ l1 l2, ps = l1 ++ p :: l2 ∧ id p = i ∧ ∀ q, q ∈ l1 → id q ≠ i.

(** The records of [created] came one after the other on top of [ps],
    each under an id above all ids before it. *)
Definition each_above (ps created : list product) : Prop :=
  ∀ l1 p l2, created = l1 ++ p :: l2 →
             ∀ q, q ∈ ps ++ l1 → id q < id p.

(** ** Configuration *)

(** [os.getenv(key, default)] on the process environment. *)
Definition getenv (environ : gmap string string) (key : string)
    (default : value) : value :=
  match environ !! key with
  | Some s => VStr s
  | None => default
  end.

(** [a == 'development'] for a value [a]. *)
Definition py_eq_str (a : value) (s : string) : bool :=
  match a with
  | VStr s' => bool_decide (s' = s)
  | _ => false
  end.

Section config.
Context `{RT : Runtime}.

(** [PORT = int(os.getenv('PORT', 5000))] *)
Definition PORT (environ : gmap string string) : result Z :=
  py_int (getenv environ "PORT" (VInt 5000)).

(** [ENV = os.getenv('ENVIRONMENT', 'development')] *)
Definition ENV (environ : gmap string string) : value :=
  getenv environ "ENVIRONMENT" (VStr "development").

(** The keyword arguments of [app.run] in the main block: host, port and
    debug; evaluating [PORT] may raise when the module is loaded. *)
Definition run_args (environ : gmap string string)
    : result (string * Z * bool) :=
  port <- PORT environ ;;
  Ok ("0.0.0.0", port, py_eq_str (ENV environ) "development").
End config.

(** The test [field in l] of [py_in] on a list. *)
Definition has_str (field : string) (l : list value) : bool :=
  existsb (fun v => match v with
                    | VStr s => bool_decide (s = field)
                    | _ => false
                    end) l.

(** [sub] occurs in [s]. *)
Definition occurs_in (sub s : string) : Prop :=
  ∃ pre post, s = pre +:+ sub +:+ post.

(** The k-th record, counting from 0, has id [k + 1]. *)
Definition ids_by_position (ps : list product) : Prop :=
  ∀ k p, ps !! k = Some p → id p = Z.of_nat k + 1.

(** The record a second create of the pen adds, and the run of the two
    creates. *)
Definition pen7 : product := Product 7 (VStr "Pen") (float_lit 199 2) 500.

Definition two_pens : list (request (RT := test_runtime)) :=
  [POST_products (RT := test_runtime) pen_body;
   POST_products (RT := test_runtime) pen_body].

Definition test_init_two_pens : state (RT := test_runtime) :=
  State (RT := test_runtime) (seed_products ++ [pen; pen7])
        (AppState (RT := test_runtime) 0 true).

(** The first seeded record. *)
Definition laptop : product :=
  Product 1 (VStr "Laptop") (float_lit 99999 2) 50.

(** A body nobody would call a product:
    [{"name": null, "price": -1.5, "stock": -3}]. *)
Definition odd_fields : gmap string value :=
  {[ "name" := VNone;
     "price" := VFloat (S754_finite true 6755399441055744 (-52));
     "stock" := VInt (-3) ]}.

(** A body with a fractional stock:
    [{"name": "Pen", "price": 1.99, "stock": 2.5}]. *)
Definition frac_stock_fields : gmap string value :=
  {[ "name" := VStr "Pen";
     "price" := VFloat (float_lit 199 2);
     "stock" := VFloat (S754_finite false 5629499534213120 (-51)) ]}.

(** * Properties *)

(** ** Literals *)

(** The literal [1.99] is the binary64 number [8962163258467287 * 2^-52],
    and [float(1)] is [1.0]. *)
Example float_lit_199 :
  float_lit 199 2 = S754_finite false 8962163258467287 (-52).
Proof. vm_compute. reflexivity. Qed.

Example float_of_int_1 :
  float_of_int 1 = Ok (S754_finite false 4503599627370496 (-52)).
Proof. vm_compute. reflexivity. Qed.

(** [int(-2.5)] is [-2], and an integer above the largest float does not
    convert. *)
Example float_trunc_neg :
  float_trunc (SFopp (float_lit 25 1)) = Ok (-2).
Proof. vm_compute. reflexivity. Qed.

Example float_of_int_overflow :
  float_of_int (2 ^ 1024) = Raise OverflowError.
Proof. vm_compute. reflexivity. Qed.

(** ** The maximum and the next id *)

Lemma py_max_le x xs : x ≤ py_max x xs.
Proof.
  unfold py_max. revert x.
  induction xs as [|y ys IH]; intros x; simpl; [lia|].
  specialize (IH (Z.max x y)). lia.
Qed.

Lemma py_max_ub x xs y : y ∈ xs → y ≤ py_max x xs.
Proof.
  unfold py_max. revert x.
  induction xs as [|z zs IH]; intros x Hy; simpl.
  - by apply elem_of_nil in Hy.
  - apply elem_of_cons in Hy as [->|Hy].
    + pose proof (py_max_le (Z.max x z) zs) as H. unfold py_max in H. lia.
    + by apply IH.
Qed.

Lemma py_max_elem x xs : py_max x xs ∈ x :: xs.
Proof.
  unfold py_max. revert x.
  induction xs as [|z zs IH]; intros x; simpl.
  - apply elem_of_cons. by left.
  - specialize (IH (Z.max x z)).
    rewrite !elem_of_cons in IH |- *.
    destruct IH as [Heq|Hin]; [|by right; right].
    rewrite Heq. destruct (Z.max_spec x z) as [[_ ->]|[_ ->]]; [right|]; by left.
Qed.

Lemma elem_of_map_id (ps : list product) (i : Z) :
  i ∈ map id ps ↔ ∃ q, q ∈ ps ∧ id q = i.
Proof.
  rewrite list_elem_of_In, in_map_iff.
  split; intros (q & H1 & H2); exists q.
  - by rewrite list_elem_of_In.
  - by rewrite <- list_elem_of_In.
Qed.

Lemma next_id_above ps q : q ∈ ps → id q < next_id ps.
Proof.
  destruct ps as [|p ps']; intros Hq; [by apply elem_of_nil in Hq|].
  simpl. apply elem_of_cons in Hq as [->|Hq].
  - pose proof (py_max_le (id p) (map id ps')). lia.
  - assert (id q ∈ map id ps') as H by (apply elem_of_map_id; by exists q).
    apply (py_max_ub (id p)) in H. lia.
Qed.

Lemma next_id_attained ps :
  ps ≠ [] → ∃ q, q ∈ ps ∧ next_id ps = id q + 1.
Proof.
  destruct ps as [|p ps']; [done|]. intros _. simpl.
  pose proof (py_max_elem (id p) (map id ps')) as H.
  change (id p :: map id ps') with (map id (p :: ps')) in H.
  apply elem_of_map_id in H as (q & Hin & Hq).
  exists q. split; [done|]. by rewrite Hq.
Qed.

Lemma next_id_fresh ps : next_id ps ∉ map id ps.
Proof.
  intros Hin. apply elem_of_map_id in Hin as (q & Hin & Hq).
  apply next_id_above in Hin. lia.
Qed.

Section properties.
Context `{RT : Runtime}.

(** ** The create endpoint, case by case *)

Lemma py_all_in_dict d :
  py_all_in (VDict d) required =
  Ok (bool_decide (is_Some (d !! "name")) &&
      bool_decide (is_Some (d !! "price")) &&
      bool_decide (is_Some (d !! "stock"))).
Proof.
  simpl. by repeat case_bool_decide.
Qed.

(** Only a dict can be indexed by a field name. *)
Lemma new_product_ok data ps p :
  new_product data ps = Ok p →
  ∃ d vn vp vs,
    data = VDict d ∧
    d !! "name" = Some vn ∧ d !! "price" = Some vp ∧ d !! "stock" = Some vs ∧
    py_float vp = Ok (price p) ∧ py_int vs = Ok (stock p) ∧
    name p = vn ∧ id p = next_id ps.
Proof.
  unfold new_product. destruct data as [| | | | | |d]; simpl; try discriminate.
  destruct (d !! "name") as [vn|] eqn:Hname; simpl; [|discriminate].
  destruct (d !! "price") as [vp|] eqn:Hprice; simpl; [|discriminate].
  destruct (py_float vp) as [f|] eqn:Hf; simpl; [|discriminate].
  destruct (d !! "stock") as [vs|] eqn:Hstock; simpl; [|discriminate].
  destruct (py_int vs) as [n|] eqn:Hn; simpl; [|discriminate].
  intros [= <-]. by exists d, vn, vp, vs.
Qed.

(** A request either creates a record, appended under the next id, or
    leaves the state as it was without answering 201. *)
Lemma create_product_cases data st :
  (∃ p, new_product data (products st) = Ok p ∧
        create_product data st =
          (created_response p, State (products st ++ [p]) (app_state st))) ∨
  (snd (create_product data st) = st ∧
   is_created (fst (create_product data st)) = false).
Proof.
  unfold create_product.
  destruct (py_all_in data required) as [[|]|e]; [|by right..].
  destruct (new_product data (products st)) as [p|e]; [|by right].
  left. by exists p.
Qed.

Lemma create_product_created data st o st' :
  create_product data st = (o, st') →
  status_of o = Some 201 →
  ∃ p, new_product data (products st) = Ok p ∧
       o = created_response p ∧
       st' = State (products st ++ [p]) (app_state st).
Proof.
  intros Hc Hs.
  destruct (create_product_cases data st) as [(p & Hp & Heq)|[_ Hn]].
  - rewrite Heq in Hc. injection Hc as <- <-. by exists p.
  - rewrite Hc in Hn. unfold is_created in Hn. simpl in Hn.
    by rewrite Hs in Hn.
Qed.

(** ** Claims *)

(** C1: a POST /api/products answered with 201 gives the new product the
    largest id among the existing records plus one, or 1 when there is
    none, and puts the new record at the end of the collection. *)
Theorem create_product_next_id data st o st' :
  create_product data st = (o, st') →
  status_of o = Some 201 →
  ∃ p,
    o = created_response p ∧
    products st' = products st ++ [p] ∧
    (products st = [] → id p = 1) ∧
    (products st ≠ [] →
       (∃ q, q ∈ products st ∧ id p = id q + 1) ∧
       (∀ q, q ∈ products st → id q + 1 ≤ id p)).
Proof.
  intros Hc Hs.
  destruct (create_product_created _ _ _ _ Hc Hs) as (p & Hp & -> & ->).
  apply new_product_ok in Hp as (d & vn & vp & vs & _ & _ & _ & _ & _ & _ & _ & Hid).
  exists p. repeat split; try done.
  - intros Hnil. by rewrite Hid, Hnil.
  - rewrite Hid. by apply next_id_attained.
  - intros q Hq. rewrite Hid. apply next_id_above in Hq. lia.
Qed.

(** C3: a body that is a JSON object lacking one of name, price and stock
    is answered with 400 and the error "Missing required fields", and the
    state is the one before the request. *)
Theorem create_product_missing_field d st :
  d !! "name" = None ∨ d !! "price" = None ∨ d !! "stock" = None →
  create_product (VDict d) st = (missing_fields_response, st).
Proof.
  intros Hmiss. unfold create_product. rewrite py_all_in_dict.
  assert (bool_decide (is_Some (d !! "name")) &&
          bool_decide (is_Some (d !! "price")) &&
          bool_decide (is_Some (d !! "stock")) = false) as ->; [|done].
  destruct Hmiss as [H|[H|H]]; rewrite H;
    repeat case_bool_decide; simpl; try done;
    match goal with Hs : is_Some None |- _ => by destruct Hs end.
Qed.

(** The outcome for a dict depends on its three required entries only. *)
Lemma create_product_dict_ext d1 d2 st :
  d2 !! "name" = d1 !! "name" →
  d2 !! "price" = d1 !! "price" →
  d2 !! "stock" = d1 !! "stock" →
  create_product (VDict d2) st = create_product (VDict d1) st.
Proof.
  intros Hn Hp Hs. unfold create_product, new_product.
  rewrite !py_all_in_dict. simpl. by rewrite Hn, Hp, Hs.
Qed.

Lemma product_dict_keys p :
  ∃ pd, product_dict p = VDict pd ∧
        dom pd = ({[ "id"; "name"; "price"; "stock" ]} : gset string) ∧
        pd !! "id" = Some (VInt (id p)) ∧
        pd !! "name" = Some (name p) ∧
        pd !! "price" = Some (VFloat (price p)) ∧
        pd !! "stock" = Some (VInt (stock p)).
Proof.
  eexists. split; [reflexivity|].
  split; [|by repeat split].
  rewrite !dom_insert_L, dom_singleton_L. set_solver.
Qed.

(** C10: when POST /api/products accepts a body, the body is an object
    holding name, price and stock; the record created and returned has the
    four fields id, name, price and stock and no other, its name being the
    body's name as it came, its price [float] of the body's price and its
    stock [int] of the body's stock; whatever else the body holds does not
    change the outcome. *)
Theorem create_product_record data st o st' :
  create_product data st = (o, st') →
  status_of o = Some 201 →
  ∃ d vn vp vs f n p pd,
    data = VDict d ∧
    d !! "name" = Some vn ∧ d !! "price" = Some vp ∧ d !! "stock" = Some vs ∧
    py_float vp = Ok f ∧ py_int vs = Ok n ∧
    o = created_response p ∧ products st' = products st ++ [p] ∧
    product_dict p = VDict pd ∧
    dom pd = ({[ "id"; "name"; "price"; "stock" ]} : gset string) ∧
    pd !! "name" = Some vn ∧
    pd !! "price" = Some (VFloat f) ∧
    pd !! "stock" = Some (VInt n) ∧
    (∀ d', d' !! "name" = Some vn → d' !! "price" = Some vp →
           d' !! "stock" = Some vs →
           create_product (VDict d') st = (o, st')).
Proof.
  intros Hc Hs.
  destruct (create_product_created _ _ _ _ Hc Hs) as (p & Hp & -> & ->).
  apply new_product_ok in Hp
    as (d & vn & vp & vs & -> & Hn & Hpr & Hst & Hf & Hi & Hname & _).
  destruct (product_dict_keys p) as (pd & Hpd & Hdom & _ & Hk1 & Hk2 & Hk3).
  exists d, vn, vp, vs, (price p), (stock p), p, pd.
  repeat split; try done.
  - by rewrite <- Hname.
  - intros d' H1 H2 H3. rewrite <- Hc.
    apply create_product_dict_ext; congruence.
Qed.

(** With the three fields present the check passes and the record is
    built from their conversions. *)
Lemma create_product_present d st vn vp vs :
  d !! "name" = Some vn → d !! "price" = Some vp → d !! "stock" = Some vs →
  create_product (VDict d) st =
  match (f <- py_float vp ;; n <- py_int vs ;;
         Ok (Product (next_id (products st)) vn f n)) with
  | Raise e => (Raised e, st)
  | Ok p => (created_response p, State (products st ++ [p]) (app_state st))
  end.
Proof.
  intros Hn Hp Hs. unfold create_product, new_product.
  rewrite py_all_in_dict. simpl. rewrite Hn, Hp, Hs. simpl.
  rewrite ?bool_decide_eq_true_2 by eauto. simpl.
  destruct (py_float vp); simpl; [|done].
  by destruct (py_int vs).
Qed.

(** C8, as the code has it: when a body holds name, price and stock but
    [float] of its price or [int] of its stock raises, the handler returns
    no response: that exception leaves it, the price's first, and the
    collection is as before. *)
Theorem create_product_uncoercible d st vn vp vs :
  d !! "name" = Some vn → d !! "price" = Some vp → d !! "stock" = Some vs →
  (∃ e, py_float vp = Raise e) ∨ (∃ e, py_int vs = Raise e) →
  ∃ e, create_product (VDict d) st = (Raised e, st) ∧
       (py_float vp = Raise e ∨
        (∃ f, py_float vp = Ok f) ∧ py_int vs = Raise e).
Proof.
  intros Hn Hp Hs Hbad.
  rewrite (create_product_present d st vn vp vs Hn Hp Hs).
  destruct (py_float vp) as [f|e] eqn:Hf; simpl.
  - destruct Hbad as [[e He]|[e He]]; [discriminate|].
    rewrite He. simpl. exists e. split; [done|]. right. eauto.
  - exists e. split; [done|]. by left.
Qed.

(** The linear scan of the lookup. *)
Lemma find_id_Some i ps p :
  find (λ p, id p =? i) ps = Some p ↔ first_match i p ps.
Proof.
  induction ps as [|q ps IH]; simpl.
  - split; [done|]. intros (l1 & l2 & Heq & _). by destruct l1.
  - destruct (id q =? i) eqn:Hq.
    + apply Z.eqb_eq in Hq. split.
      * intros [= ->]. exists [], ps. repeat split; try done.
        intros q' Hq'. by apply elem_of_nil in Hq'.
      * intros (l1 & l2 & Heq & Hp & Hno). destruct l1 as [|q' l1].
        -- by injection Heq as ->.
        -- injection Heq as -> _. exfalso. apply (Hno q'); [|done].
           apply elem_of_cons. by left.
    + apply Z.eqb_neq in Hq. rewrite IH. split.
      * intros (l1 & l2 & -> & Hp & Hno). exists (q :: l1), l2.
        repeat split; try done.
        intros q' [->|Hq']%elem_of_cons; [done|by apply Hno].
      * intros (l1 & l2 & Heq & Hp & Hno). destruct l1 as [|q' l1].
        -- injection Heq as -> _. by rewrite Hp in Hq.
        -- injection Heq as -> ->. exists l1, l2. repeat split; try done.
           intros q'' Hq''. apply Hno, elem_of_cons. by right.
Qed.

Lemma find_id_None i ps :
  find (λ p, id p =? i) ps = None ↔ ¬ ∃ p, p ∈ ps ∧ id p = i.
Proof.
  induction ps as [|q ps IH]; simpl.
  - split; [|done]. intros _ (p & Hp & _). by apply elem_of_nil in Hp.
  - destruct (id q =? i) eqn:Hq.
    + apply Z.eqb_eq in Hq. split; [done|]. intros Hno. exfalso.
      apply Hno. exists q. split; [|done]. apply elem_of_cons. by left.
    + apply Z.eqb_neq in Hq. rewrite IH. split.
      * intros Hno (p & [->|Hp]%elem_of_cons & Hi); [done|].
        apply Hno. by exists p.
      * intros Hno (p & Hp & Hi). apply Hno. exists p.
        split; [|done]. apply elem_of_cons. by right.
Qed.

Lemma first_match_elem i p ps : first_match i p ps → p ∈ ps ∧ id p = i.
Proof.
  intros (l1 & l2 & -> & Hi & _). split; [|done].
  apply elem_of_app. right. apply elem_of_cons. by left.
Qed.

(** The handler alone, at every integer argument: it answers 200 with
    the stored record of that id (the first met by the scan) exactly when
    the collection holds such a record, and 404 with the body
    [{"success": false, "error": "Product not found"}] exactly when it
    holds none; id 99 on the seeded collection is answered 404. *)
Theorem get_product_found_iff i st t0 :
  ((∃ p, p ∈ products st ∧ id p = i) ↔
   (∃ p, first_match i p (products st) ∧
         fst (get_product i st) = found_response p)) ∧
  ((¬ ∃ p, p ∈ products st ∧ id p = i) ↔
   fst (get_product i st) = not_found_response) ∧
  fst (get_product 99 (init t0)) = not_found_response.
Proof.
  unfold get_product. split; [|split; [|done]].
  - destruct (find _ (products st)) as [p|] eqn:Hfind.
    + apply find_id_Some in Hfind. split.
      * intros _. by exists p.
      * intros _. exists p. by apply first_match_elem.
    + apply find_id_None in Hfind. split; [done|].
      intros (p & Hp & _). exfalso. apply Hfind. exists p.
      by apply first_match_elem.
  - destruct (find _ (products st)) as [p|] eqn:Hfind.
    + apply find_id_Some, first_match_elem in Hfind. split; [|done].
      intros Hno. exfalso. apply Hno. by exists p.
    + apply find_id_None in Hfind. by split.
Qed.

(** C2, for the ids the route passes on: for every integer id that is
    not negative, GET /api/products/{id} reaches the handler and answers
    200 with the stored record of that id (the first met by the scan)
    exactly when the collection holds such a record, and 404 with the
    body [{"success": false, "error": "Product not found"}] exactly when
    it holds none; id 99 on the seeded collection is answered that 404. *)
Theorem route_get_product_found_iff i st t0 :
  0 ≤ i →
  ((∃ p, p ∈ products st ∧ id p = i) ↔
   (∃ p, first_match i p (products st) ∧
         fst (route_get_product i st) = Handled (found_response p))) ∧
  ((¬ ∃ p, p ∈ products st ∧ id p = i) ↔
   fst (route_get_product i st) = Handled not_found_response) ∧
  fst (route_get_product 99 (init t0)) = Handled not_found_response.
Proof.
  intros Hi. unfold route_get_product.
  apply Z.leb_le in Hi. rewrite Hi. simpl.
  destruct (get_product_found_iff i st t0) as (Hfound & Hnone & H99).
  split; [|split].
  - rewrite Hfound. split; intros (p & Hp & Hr); exists p; split; try done.
    + by rewrite Hr.
    + by injection Hr.
  - rewrite Hnone. split; [by intros ->|by intros [= ->]].
  - by rewrite ?H99.
Qed.

(** C7: GET /ready answers 200 with [{"status": "ready", "service":
    "product-api"}] when [app_state['ready']] is true and 503 with
    [{"status": "not ready"}] when it is false. *)
Theorem ready_by_flag st :
  fst (ready st) =
  if is_ready (app_state st) then
    Returned (Resp (Json (VDict {[ "status" := VStr "ready";
                                   "service" := VStr "product-api" ]})) 200 [])
  else
    Returned (Resp (Json (VDict {[ "status" := VStr "not ready" ]})) 503 []).
Proof.
  unfold ready. by destruct (is_ready (app_state st)).
Qed.

(** ** Frame and runs *)

(** A request either creates a record, whose id is above every id held,
    or leaves the state as it was without answering 201. *)
Lemma handle_cases r st :
  (∃ p, is_created (fst (handle r st)) = true ∧
        snd (handle r st) = State (products st ++ [p]) (app_state st) ∧
        id p = next_id (products st)) ∨
  (is_created (fst (handle r st)) = false ∧ snd (handle r st) = st).
Proof.
  destruct r as [now| | |i|data|now rnd|]; simpl; try by right.
  - right. unfold ready. by destruct (is_ready (app_state st)).
  - right. unfold get_product. by destruct (find _ _).
  - destruct (create_product_cases data st) as [(p & Hp & Heq)|[Hs Hc]].
    + left. exists p. rewrite Heq. repeat split.
      by apply new_product_ok in Hp as (? & ? & ? & ? & _ & _ & _ & _ & _ & _ & _ & ?).
    + by right.
Qed.

(** C9: the GET handlers leave the product collection and [app_state] as
    they found them; POST /api/products leaves [app_state] alone and either
    leaves the collection alone or puts one record after the records it
    held. *)
Theorem handlers_frame st :
  (∀ now, snd (health now st) = st) ∧
  snd (ready st) = st ∧
  snd (get_products st) = st ∧
  (∀ i, snd (get_product i st) = st) ∧
  (∀ now rnd, snd (metrics now rnd st) = st) ∧
  snd (index st) = st ∧
  (∀ data,
     app_state (snd (create_product data st)) = app_state st ∧
     (snd (create_product data st) = st ∨
      ∃ p, products (snd (create_product data st)) = products st ++ [p])).
Proof.
  split; [done|]. split.
  { unfold ready. by destruct (is_ready (app_state st)). }
  split; [done|]. split.
  { intros i. unfold get_product. by destruct (find _ _). }
  split; [done|]. split; [done|].
  intros data.
  destruct (create_product_cases data st) as [(p & _ & ->)|[-> _]]; simpl.
  - split; [done|]. right. by exists p.
  - split; [done|]. by left.
Qed.

Lemma run_cons r rs st :
  run (r :: rs) st =
  (fst (handle r st) :: fst (run rs (snd (handle r st))),
   snd (run rs (snd (handle r st)))).
Proof.
  simpl. destruct (handle r st) as [o st1]. simpl.
  by destruct (run rs st1).
Qed.

Lemma reported_count_length st :
  reported_count st = Some (VInt (Z.of_nat (length (products st)))).
Proof.
  unfold reported_count. simpl.
  rewrite lookup_insert_ne by done. by rewrite lookup_insert_eq.
Qed.

Lemma each_above_cons ps p created :
  (∀ q, q ∈ ps → id q < id p) →
  each_above (ps ++ [p]) created →
  each_above ps (p :: created).
Proof.
  intros Hp Hrest l1 p' l2 Heq q Hq.
  destruct l1 as [|p0 l1]; simpl in Heq.
  - injection Heq as <- _. rewrite app_nil_r in Hq. by apply Hp.
  - injection Heq as <- ->. apply (Hrest l1 p' l2 eq_refl).
    by rewrite <- app_assoc.
Qed.

(** Over any run the count grows by the number of 201s, the new records
    follow the old ones and each has an id above all ids before it. *)
Lemma run_count_and_ids rs st :
  ∃ c created,
    reported_count st = Some (VInt c) ∧
    reported_count (snd (run rs st)) =
      Some (VInt (c + Z.of_nat (length (List.filter is_created (fst (run rs st)))))) ∧
    products (snd (run rs st)) = products st ++ created ∧
    length created = length (List.filter is_created (fst (run rs st))) ∧
    each_above (products st) created.
Proof.
  revert st. induction rs as [|r rs IH]; intros st.
  - exists (Z.of_nat (length (products st))), []. simpl.
    rewrite reported_count_length, app_nil_r, Z.add_0_r.
    repeat split. intros l1 p l2 Heq. by destruct l1.
  - rewrite run_cons. simpl.
    destruct (IH (snd (handle r st)))
      as (c & created & Hc & Hc' & Hps & Hlen & Habove).
    rewrite reported_count_length in Hc. injection Hc as <-.
    destruct (handle_cases r st) as [(p & Hcr & Hst & Hid)|[Hcr Hst]];
      rewrite Hcr; rewrite Hst in *; simpl in *.
    + exists (Z.of_nat (length (products st))), (p :: created).
      rewrite reported_count_length.
      split; [done|]. split; [|split; [|split]].
      * rewrite Hc', length_app. simpl. do 2 f_equal. lia.
      * by rewrite Hps, <- app_assoc.
      * simpl. by rewrite Hlen.
      * apply each_above_cons; [|done].
        intros q Hq. rewrite Hid. by apply next_id_above.
    + exists (Z.of_nat (length (products st))), created.
      by rewrite reported_count_length.
Qed.

(** The create endpoint answers 201 exactly to the valid bodies. *)
Lemma create_product_created_iff data st :
  is_created (fst (create_product data st)) = valid_body data.
Proof.
  unfold create_product, new_product, valid_body.
  destruct data as [| | | | s | l | d];
    try (destruct (py_all_in _ required) as [[|]|]; done).
  rewrite py_all_in_dict. simpl.
  destruct (d !! "name") as [vn|]; [|done].
  destruct (d !! "price") as [vp|]; [|done].
  destruct (d !! "stock") as [vs|]; [|done].
  simpl. destruct (py_float vp); [|done]. simpl. by destruct (py_int vs).
Qed.

Lemma handle_created_iff r st :
  is_created (fst (handle r st)) = valid_create r.
Proof.
  destruct r as [now| | |i|data|now rnd|]; simpl; try done.
  - unfold ready. by destruct (is_ready (app_state st)).
  - unfold get_product. by destruct (find _ _).
  - apply create_product_created_iff.
Qed.

Lemma run_created_iff rs st :
  Forall2 (λ r o, is_created o = valid_create r) rs (fst (run rs st)).
Proof.
  revert st. induction rs as [|r rs IH]; intros st; [by constructor|].
  rewrite run_cons. simpl. constructor; [apply handle_created_iff|apply IH].
Qed.

Lemma filter_length_Forall2 {A B} (f : A → bool) (g : B → bool) l k :
  Forall2 (λ a b, g b = f a) l k →
  length (List.filter g k) = length (List.filter f l).
Proof.
  induction 1 as [|a b l k Hab _ IH]; [done|].
  simpl. rewrite Hab. destruct (f a); simpl; by rewrite IH.
Qed.

(** C4: over any run of requests from any state, the requests answered
    201 are exactly the creates with a valid body (an object holding
    name, a price [float] converts and a stock [int] converts); with N
    their number, the count GET /api/products reports has grown by exactly
    N, the N new records follow the old ones, and each has an id strictly
    above every id that was there before it was created. *)
Theorem creates_count_and_ids rs st :
  ∃ c created,
    reported_count st = Some (VInt c) ∧
    Forall2 (λ r o, is_created o = valid_create r) rs (fst (run rs st)) ∧
    length (List.filter is_created (fst (run rs st))) =
      length (List.filter valid_create rs) ∧
    reported_count (snd (run rs st)) =
      Some (VInt (c + Z.of_nat (length (List.filter is_created (fst (run rs st)))))) ∧
    products (snd (run rs st)) = products st ++ created ∧
    length created = length (List.filter is_created (fst (run rs st))) ∧
    each_above (products st) created.
Proof.
  destruct (run_count_and_ids rs st)
    as (c & created & Hc & Hc' & Hps & Hlen & Habove).
  exists c, created.
  split; [done|]. split; [apply run_created_iff|].
  split; [apply filter_length_Forall2, run_created_iff|]. done.
Qed.

(** ** Unique ids *)

Lemma NoDup_ids_unique ps p q :
  NoDup (map id ps) → p ∈ ps → q ∈ ps → id p = id q → p = q.
Proof.
  induction ps as [|r ps IH]; simpl; intros Hnd Hp Hq Heq.
  - by apply elem_of_nil in Hp.
  - apply NoDup_cons in Hnd as [Hr Hnd].
    apply elem_of_cons in Hp as [->|Hp]; apply elem_of_cons in Hq as [->|Hq].
    + done.
    + exfalso. apply Hr, elem_of_map_id. by exists q.
    + exfalso. apply Hr, elem_of_map_id. by exists p.
    + by apply IH.
Qed.

Lemma handle_NoDup r st :
  NoDup (map id (products st)) →
  NoDup (map id (products (snd (handle r st)))).
Proof.
  intros Hnd.
  destruct (handle_cases r st) as [(p & _ & -> & Hid)|[_ ->]]; [|done].
  simpl. rewrite map_app. simpl. apply NoDup_app. repeat split.
  - done.
  - intros i Hi ->%list_elem_of_singleton.
    rewrite Hid in Hi. by apply next_id_fresh in Hi.
  - apply NoDup_singleton.
Qed.

Lemma run_NoDup rs st :
  NoDup (map id (products st)) →
  NoDup (map id (products (snd (run rs st)))).
Proof.
  revert st. induction rs as [|r rs IH]; intros st Hnd; [done|].
  rewrite run_cons. simpl. by apply IH, handle_NoDup.
Qed.

Lemma seed_NoDup : NoDup (map id seed_products).
Proof.
  simpl. repeat (apply NoDup_cons; split; [|]); try apply NoDup_nil_2;
    rewrite ?elem_of_cons, elem_of_nil; lia.
Qed.

(** C5: the ids of the seeded collection are pairwise distinct and stay
    so after any sequence of requests, whatever the handlers answer; the
    record the lookup's scan stops at is then the only record of its id. *)
Theorem ids_unique rs t0 :
  NoDup (map id (products (init t0))) ∧
  NoDup (map id (products (snd (run rs (init t0))))) ∧
  ∀ i p,
    find (λ p, id p =? i) (products (snd (run rs (init t0)))) = Some p →
    ∀ q, q ∈ products (snd (run rs (init t0))) → id q = i → q = p.
Proof.
  assert (NoDup (map id (products (snd (run rs (init t0)))))) as Hnd
    by apply run_NoDup, seed_NoDup.
  split; [apply seed_NoDup|]. split; [done|].
  intros i p Hfind q Hq Hi.
  apply find_id_Some, first_match_elem in Hfind as [Hp Hpi].
  apply (NoDup_ids_unique _ q p Hnd Hq Hp). congruence.
Qed.

(** C6: the seeded collection holds five products with ids 1 to 5; POST
    of [{"name": "Pen", "price": 1.99, "stock": 500}] on it is answered
    201 with the product of id 6, name "Pen", price 1.99 and stock 500,
    and GET /api/products then reports count 6. *)
Theorem pen_scenario t0 :
  map id (products (init t0)) = [1; 2; 3; 4; 5] ∧
  fst (create_product pen_body (init t0)) = created_response pen ∧
  status_of (fst (create_product pen_body (init t0))) = Some 201 ∧
  products (snd (create_product pen_body (init t0))) = seed_products ++ [pen] ∧
  reported_count (snd (create_product pen_body (init t0))) = Some (VInt 6).
Proof.
  assert (create_product pen_body (init t0) =
          (created_response pen,
           State (seed_products ++ [pen]) (AppState t0 true))) as ->.
  { unfold pen_body.
    by rewrite (create_product_present pen_fields (init t0)
                  (VStr "Pen") (VFloat (float_lit 199 2)) (VInt 500)). }
  by repeat split.
Qed.

End properties.

(** ** The claims on concrete requests *)

Lemma pen_fields_lookup :
  pen_fields !! "name" = Some (VStr "Pen") ∧
  pen_fields !! "price" = Some (VFloat (float_lit 199 2)) ∧
  pen_fields !! "stock" = Some (VInt 500).
Proof. by repeat split. Qed.

Lemma null_price_fields_lookup :
  null_price_fields !! "name" = Some (VStr "Pen") ∧
  null_price_fields !! "price" = Some VNone ∧
  null_price_fields !! "stock" = Some (VInt 500).
Proof. by repeat split. Qed.

Lemma test_pen_created :
  create_product (RT := test_runtime) pen_body test_init =
  (created_response pen, test_init_pen).
Proof.
  destruct pen_fields_lookup as (Hn & Hp & Hs). unfold pen_body.
  by rewrite (create_product_present (RT := test_runtime) _ _ _ _ _ Hn Hp Hs).
Qed.

(** C1 on the create scenario: the pen gets id 6 after ids 1 to 5. *)
Lemma create_product_next_id_pen :
  ∃ p,
    created_response pen = created_response p ∧
    products test_init_pen = products test_init ++ [p] ∧
    (products test_init = [] → id p = 1) ∧
    (products test_init ≠ [] →
       (∃ q, q ∈ products test_init ∧ id p = id q + 1) ∧
       (∀ q, q ∈ products test_init → id q + 1 ≤ id p)).
Proof.
  exact (create_product_next_id (RT := test_runtime) pen_body test_init
           (created_response pen) test_init_pen test_pen_created eq_refl).
Defined.

(** C3 on a body with a name only. *)
Lemma create_product_missing_field_name_only :
  create_product (RT := test_runtime) (VDict name_only_fields) test_init =
  (missing_fields_response, test_init).
Proof.
  apply (create_product_missing_field (RT := test_runtime)
           name_only_fields test_init).
  right. left. reflexivity.
Defined.

(** C10 on the create scenario. *)
Lemma create_product_record_pen :
  ∃ d vn vp vs f n p pd,
    pen_body = VDict d ∧
    d !! "name" = Some vn ∧ d !! "price" = Some vp ∧ d !! "stock" = Some vs ∧
    py_float (RT := test_runtime) vp = Ok f ∧
    py_int (RT := test_runtime) vs = Ok n ∧
    created_response pen = created_response p ∧
    products test_init_pen = products test_init ++ [p] ∧
    product_dict p = VDict pd ∧
    dom pd = ({[ "id"; "name"; "price"; "stock" ]} : gset string) ∧
    pd !! "name" = Some vn ∧
    pd !! "price" = Some (VFloat f) ∧
    pd !! "stock" = Some (VInt n) ∧
    (∀ d', d' !! "name" = Some vn → d' !! "price" = Some vp →
           d' !! "stock" = Some vs →
           create_product (RT := test_runtime) (VDict d') test_init =
           (created_response pen, test_init_pen)).
Proof.
  exact (create_product_record (RT := test_runtime) pen_body test_init
           (created_response pen) test_init_pen test_pen_created eq_refl).
Defined.

(** C8, as the code has it, on the body with a null price. *)
Lemma create_product_uncoercible_null_price :
  ∃ e,
    create_product (RT := test_runtime) (VDict null_price_fields) test_init =
      (Raised e, test_init) ∧
    (py_float (RT := test_runtime) VNone = Raise e ∨
     (∃ f, py_float (RT := test_runtime) VNone = Ok f) ∧
     py_int (RT := test_runtime) (VInt 500) = Raise e).
Proof.
  destruct null_price_fields_lookup as (Hn & Hp & Hs).
  exact (create_product_uncoercible (RT := test_runtime)
           null_price_fields test_init (VStr "Pen") VNone (VInt 500)
           Hn Hp Hs (or_introl (ex_intro _ TypeError eq_refl))).
Defined.

(** C8 as stated fails: the body [{"name": "Pen", "price": null,
    "stock": 500}] holds the three fields, [float(None)] raises
    [TypeError], and no 400 is returned: the exception leaves the
    handler. *)
Lemma create_product_null_price_no_400 :
  null_price_fields !! "name" = Some (VStr "Pen") ∧
  null_price_fields !! "price" = Some VNone ∧
  null_price_fields !! "stock" = Some (VInt 500) ∧
  py_float (RT := test_runtime) VNone = Raise TypeError ∧
  create_product (RT := test_runtime) null_price_body test_init =
    (Raised TypeError, test_init) ∧
  status_of (fst (create_product (RT := test_runtime) null_price_body test_init))
    ≠ Some 400.
Proof.
  destruct null_price_fields_lookup as (Hn & Hp & Hs).
  assert (create_product (RT := test_runtime) null_price_body test_init =
          (Raised TypeError, test_init)) as Hc.
  { unfold null_price_body.
    by rewrite (create_product_present (RT := test_runtime) _ _ _ _ _ Hn Hp Hs). }
  rewrite Hc. by repeat split.
Qed.

(** C2 on id 1 of the seeded collection. *)
Lemma route_get_product_found_iff_laptop :
  ((∃ p, p ∈ products test_init ∧ id p = 1) ↔
   (∃ p, first_match 1 p (products test_init) ∧
         fst (route_get_product (RT := test_runtime) 1 test_init) =
         Handled (found_response p))) ∧
  ((¬ ∃ p, p ∈ products test_init ∧ id p = 1) ↔
   fst (route_get_product (RT := test_runtime) 1 test_init) =
   Handled not_found_response) ∧
  fst (route_get_product (RT := test_runtime) 99
         (init (RT := test_runtime) 0)) = Handled not_found_response.
Proof.
  exact (route_get_product_found_iff (RT := test_runtime) 1 test_init 0
           Z.le_0_1).
Defined.

(** C2 as stated fails at id -1 on the seeded collection: no record has
    that id, yet the answer is not the handler's JSON 404: the route does
    not match and the framework answers 404 with its own page. *)
Lemma route_get_product_negative_id :
  (¬ ∃ p, p ∈ products test_init ∧ id p = -1) ∧
  route_get_product (RT := test_runtime) (-1) test_init =
    (NotRouted, test_init) ∧
  fst (route_get_product (RT := test_runtime) (-1) test_init) ≠
    Handled not_found_response ∧
  served_status (fst (route_get_product (RT := test_runtime) (-1) test_init))
    = Some 404.
Proof.
  split; [|by repeat split].
  intros (p & Hp & Hid).
  assert (-1 ∈ map id seed_products) as Hin
    by (apply elem_of_map_id; by exists p).
  change (map id seed_products) with [1; 2; 3; 4; 5] in Hin.
  rewrite !elem_of_cons, elem_of_nil in Hin. lia.
Qed.

Lemma run_two_pens :
  run (RT := test_runtime) two_pens test_init =
  ([created_response pen; created_response pen7], test_init_two_pens).
Proof.
  destruct pen_fields_lookup as (Hn & Hp & Hs).
  unfold two_pens. rewrite !run_cons. cbn [handle run fst snd].
  rewrite test_pen_created. cbn [fst snd]. unfold pen_body.
  by rewrite (create_product_present (RT := test_runtime)
                pen_fields test_init_pen _ _ _ Hn Hp Hs).
Qed.

(** C4 on two creates of the pen from the seeded state: both bodies are
    valid, both are answered 201, with ids 6 and 7, and the count goes
    from 5 to 7. *)
Lemma creates_count_and_ids_two_pens :
  length (List.filter (valid_create (RT := test_runtime)) two_pens) = 2%nat ∧
  fst (run (RT := test_runtime) two_pens test_init) =
    [created_response pen; created_response pen7] ∧
  map id (products (snd (run (RT := test_runtime) two_pens test_init))) =
    [1; 2; 3; 4; 5; 6; 7] ∧
  reported_count test_init = Some (VInt 5) ∧
  reported_count (snd (run (RT := test_runtime) two_pens test_init)) =
    Some (VInt 7) ∧
  length (List.filter is_created
            (fst (run (RT := test_runtime) two_pens test_init))) = 2%nat.
Proof.
  destruct (creates_count_and_ids (RT := test_runtime) two_pens test_init)
    as (c & created & Hc & Hall & HN & Hc' & Hps & Hlen & Habove).
  assert (length (List.filter (valid_create (RT := test_runtime)) two_pens)
          = 2%nat) as H2 by reflexivity.
  rewrite reported_count_length in Hc. injection Hc as <-.
  rewrite HN, H2 in Hc'.
  split; [exact H2|]. split; [by rewrite run_two_pens|].
  split; [by rewrite run_two_pens|]. split; [apply reported_count_length|].
  split; [exact Hc'|]. by rewrite HN.
Defined.

(** * Further properties of the handlers *)

(** ** Strings *)

Lemma str_app_nil (b : string) : EmptyString +:+ b = b.
Proof. reflexivity. Qed.

Lemma str_app_cons x (a b : string) : String x a +:+ b = String x (a +:+ b).
Proof. reflexivity. Qed.

Lemma str_app_assoc (a b c : string) : (a +:+ b) +:+ c = a +:+ b +:+ c.
Proof.
  induction a as [|x a IH]; [done|]. rewrite !str_app_cons. by f_equal.
Qed.

Lemma prefix_spec (a s : string) :
  String.prefix a s = true ↔ ∃ post, s = a +:+ post.
Proof.
  revert s. induction a as [|x a IH]; intros s.
  - split; [|by destruct s]. intros _. by exists s.
  - destruct s as [|y s]; simpl.
    + split; [done|]. intros [post Hp]. by rewrite str_app_cons in Hp.
    + destruct (ascii_dec x y) as [->|Hne].
      * rewrite IH. split; intros [post Hp]; exists post.
        -- rewrite str_app_cons. by f_equal.
        -- rewrite str_app_cons in Hp. congruence.
      * split; [done|]. intros [post Hp].
        rewrite str_app_cons in Hp. congruence.
Qed.

Lemma str_contains_spec (s sub : string) :
  str_contains s sub = true ↔ occurs_in sub s.
Proof.
  unfold occurs_in. induction s as [|x s IH]; cbn [str_contains].
  - rewrite orb_false_r, prefix_spec. split.
    + intros [post Hp]. by exists EmptyString, post.
    + intros (pre & post & Hp). destruct pre as [|y pre].
      * by exists post.
      * by rewrite str_app_cons in Hp.
  - rewrite orb_true_iff, prefix_spec, IH. split.
    + intros [[post Hp]|(pre & post & Hp)].
      * by exists EmptyString, post.
      * exists (String x pre), post. rewrite str_app_cons. by f_equal.
    + intros (pre & post & Hp). destruct pre as [|y pre].
      * left. by exists post.
      * right. exists pre, post. rewrite str_app_cons in Hp. congruence.
Qed.

Lemma occurs_in_app_r (a s sub : string) :
  occurs_in sub s → occurs_in sub (a +:+ s).
Proof.
  intros (pre & post & ->). exists (a +:+ pre), post.
  by rewrite str_app_assoc.
Qed.

Lemma occurs_in_prefix4 (a b c d post : string) :
  occurs_in (a +:+ b +:+ c +:+ d) (a +:+ b +:+ c +:+ d +:+ post).
Proof.
  exists EmptyString, post. by rewrite str_app_nil, !str_app_assoc.
Qed.

Section more_properties.
Context `{RT : Runtime}.

(** ** Bodies that are not objects *)

(** X1: a body that parses to [null], a boolean or a number makes the
    presence check itself raise [TypeError]; nothing is answered and the
    collection is as before. *)
Theorem create_product_scalar_body data st :
  data = VNone ∨ (∃ b, data = VBool b) ∨ (∃ n, data = VInt n) ∨
    (∃ f, data = VFloat f) →
  create_product data st = (Raised TypeError, st).
Proof.
  intros [->|[[b ->]|[[n ->]|[f ->]]]]; reflexivity.
Qed.

Lemma has_str_spec f l : has_str f l = true ↔ VStr f ∈ l.
Proof.
  unfold has_str. rewrite existsb_exists. split.
  - intros (v & Hv & Hf). destruct v; try done.
    apply bool_decide_eq_true in Hf as ->. by apply list_elem_of_In.
  - intros Hf. exists (VStr f).
    split; [by apply list_elem_of_In|]. by apply bool_decide_eq_true.
Qed.

Lemma py_all_in_list l :
  py_all_in (VList l) required =
  Ok (has_str "name" l && has_str "price" l && has_str "stock" l).
Proof.
  cbn [py_all_in required bind py_in]. fold (has_str "name" l).
  fold (has_str "price" l). fold (has_str "stock" l).
  by destruct (has_str "name" l), (has_str "price" l), (has_str "stock" l).
Qed.

Lemma all_required (P : string → Prop) :
  (∀ f, f ∈ required → P f) ↔ P "name" ∧ P "price" ∧ P "stock".
Proof.
  unfold required. split.
  - intros H. repeat split; apply H; rewrite !elem_of_cons; auto.
  - intros (Hn & Hp & Hs) f Hf. rewrite !elem_of_cons, elem_of_nil in Hf.
    destruct Hf as [->|[->|[->|[]]]]; done.
Qed.

(** X2: a body that is a JSON list is never accepted and never changes
    the collection: when "name", "price" and "stock" are all among its
    elements the check passes and indexing the list by a string raises
    [TypeError]; otherwise the answer is the 400 of a missing field. *)
Theorem create_product_list_body l st :
  ((∀ f, f ∈ required → VStr f ∈ l) →
   create_product (VList l) st = (Raised TypeError, st)) ∧
  ((¬ ∀ f, f ∈ required → VStr f ∈ l) →
   create_product (VList l) st = (missing_fields_response, st)) ∧
  (create_product (VList l) st = (Raised TypeError, st) ∨
   create_product (VList l) st = (missing_fields_response, st)).
Proof.
  rewrite all_required, <- !has_str_spec.
  unfold create_product. rewrite py_all_in_list.
  destruct (has_str "name" l), (has_str "price" l), (has_str "stock" l);
    simpl; (split; [|split]); try (by left); try (by right);
    try done; try (by intros (? & ? & ?)); by intros [].
Qed.

Lemma py_all_in_str s :
  py_all_in (VStr s) required =
  Ok (str_contains s "name" && str_contains s "price" &&
      str_contains s "stock").
Proof.
  cbn [py_all_in required bind py_in].
  by destruct (str_contains s "name"), (str_contains s "price"),
       (str_contains s "stock").
Qed.

(** X3: a body that is a JSON string is never accepted and never changes
    the collection: when "name", "price" and "stock" all occur in it as
    substrings the check passes and indexing the string by a string raises
    [TypeError]; otherwise the answer is the 400 of a missing field. *)
Theorem create_product_string_body s st :
  ((∀ f, f ∈ required → occurs_in f s) →
   create_product (VStr s) st = (Raised TypeError, st)) ∧
  ((¬ ∀ f, f ∈ required → occurs_in f s) →
   create_product (VStr s) st = (missing_fields_response, st)) ∧
  (create_product (VStr s) st = (Raised TypeError, st) ∨
   create_product (VStr s) st = (missing_fields_response, st)).
Proof.
  rewrite all_required, <- !str_contains_spec.
  unfold create_product. rewrite py_all_in_str.
  destruct (str_contains s "name"), (str_contains s "price"),
    (str_contains s "stock");
    simpl; (split; [|split]); try (by left); try (by right);
    try done; try (by intros (? & ? & ?)); by intros [].
Qed.

(** X4: the create endpoint never raises [KeyError]: the presence check
    comes before every [data[...]]. *)
Theorem create_product_no_KeyError data st :
  fst (create_product data st) ≠ Raised KeyError.
Proof.
  destruct data as [| | | | s | l | d]; try done.
  - destruct (create_product_string_body s st) as (_ & _ & [-> | ->]); done.
  - destruct (create_product_list_body l st) as (_ & _ & [-> | ->]); done.
  - unfold create_product, new_product. rewrite py_all_in_dict.
    destruct (d !! "name") as [vn|] eqn:Hn; [|done].
    destruct (d !! "price") as [vp|] eqn:Hp; [|done].
    destruct (d !! "stock") as [vs|] eqn:Hs; [|done].
    pose proof (create_product_present d st vn vp vs Hn Hp Hs) as Hc.
    unfold create_product, new_product in Hc.
    rewrite py_all_in_dict, Hn, Hp, Hs in Hc. rewrite Hc.
    destruct (py_float vp) as [f|e] eqn:Hf; simpl.
    + destruct (py_int vs) as [n|e] eqn:Hi; simpl; [done|].
      intros [= ->]. by destruct vs as [| | |[]| | |]; simpl in Hi;
        try destruct (int_of_str _).
    + intros [= ->]. destruct vp as [|b|n| | | |]; simpl in Hf; try done.
      * unfold float_of_int in Hf. by destruct (b64 _ _).
      * unfold float_of_int in Hf. by destruct (b64 _ _).
      * by destruct (float_of_str _).
Qed.

(** ** Creating and looking up *)

Lemma find_app_Some {A} (f : A → bool) (l1 l2 : list A) x :
  find f l1 = Some x → find f (l1 ++ l2) = Some x.
Proof.
  induction l1 as [|y l1 IH]; simpl; [done|]. by destruct (f y).
Qed.

Lemma find_app_None {A} (f : A → bool) (l1 l2 : list A) :
  find f l1 = None → find f (l1 ++ l2) = find f l2.
Proof.
  induction l1 as [|y l1 IH]; simpl; [done|]. by destruct (f y).
Qed.

Lemma find_above ps i :
  (∀ q, q ∈ ps → id q < i) → find (λ p, id p =? i) ps = None.
Proof.
  intros Hlt. apply find_id_None. intros (q & Hq & Hi).
  apply Hlt in Hq. lia.
Qed.

(** X5: a record just created is found under the id the create returned:
    after a 201, GET /api/products/{id} with that id answers 200 with the
    very record of the 201. *)
Theorem create_then_get data st o st' :
  create_product data st = (o, st') →
  status_of o = Some 201 →
  ∃ p, o = created_response p ∧
       fst (get_product (id p) st') = found_response p.
Proof.
  intros Hc Hs.
  destruct (create_product_created _ _ _ _ Hc Hs) as (p & Hp & -> & ->).
  apply new_product_ok in Hp
    as (? & ? & ? & ? & _ & _ & _ & _ & _ & _ & _ & Hid).
  exists p. split; [done|]. unfold get_product. simpl.
  rewrite find_app_None.
  - simpl. by rewrite Z.eqb_refl.
  - apply find_above. intros q Hq. rewrite Hid. by apply next_id_above.
Qed.

Lemma run_products_app rs st :
  ∃ created, products (snd (run rs st)) = products st ++ created.
Proof.
  revert st. induction rs as [|r rs IH]; intros st.
  - exists []. simpl. by rewrite app_nil_r.
  - rewrite run_cons. simpl.
    destruct (IH (snd (handle r st))) as [created Hps]. rewrite Hps.
    destruct (handle_cases r st) as [(p & _ & -> & _)|[_ ->]].
    + exists (p :: created). simpl. by rewrite <- app_assoc.
    + by exists created.
Qed.

(** X6: records are never changed, removed or shadowed: an id that the
    lookup answers with a record keeps being answered with that same
    response after any sequence of requests. *)
Theorem lookup_stable rs st i p :
  fst (get_product i st) = found_response p →
  fst (get_product i (snd (run rs st))) = found_response p.
Proof.
  unfold get_product. intros Hget.
  destruct (run_products_app rs st) as [created ->].
  destruct (find _ (products st)) as [p'|] eqn:Hfind; [|done].
  by rewrite (find_app_Some _ _ _ _ Hfind).
Qed.

Lemma py_max_app x xs ys :
  py_max x (xs ++ ys) = py_max (py_max x xs) ys.
Proof. unfold py_max. apply fold_left_app. Qed.

Lemma next_id_snoc ps p :
  (∀ q, q ∈ ps → id q < id p) → next_id (ps ++ [p]) = id p + 1.
Proof.
  intros Hlt. destruct ps as [|q ps]; [done|].
  simpl. rewrite map_app, py_max_app. simpl. unfold py_max at 1. simpl.
  pose proof (py_max_elem (id q) (map id ps)) as Hel.
  change (id q :: map id ps) with (map id (q :: ps)) in Hel.
  apply elem_of_map_id in Hel as (q' & Hq' & Heq).
  apply Hlt in Hq'. unfold py_max in *. lia.
Qed.

(** X7: the create endpoint is not idempotent: sending an accepted body
    a second time is accepted again and stores a second record with the
    same name, price and stock under the next id, after the first. *)
Theorem create_twice data st o st1 :
  create_product data st = (o, st1) →
  status_of o = Some 201 →
  ∃ p, o = created_response p ∧
       create_product data st1 =
         (created_response (Product (id p + 1) (name p) (price p) (stock p)),
          State (products st ++ [p; Product (id p + 1) (name p) (price p)
                                      (stock p)])
                (app_state st)).
Proof.
  intros Hc Hs.
  destruct (create_product_created _ _ _ _ Hc Hs) as (p & Hp & -> & ->).
  apply new_product_ok in Hp
    as (d & vn & vp & vs & -> & Hn & Hpr & Hst & Hf & Hi & Hname & Hid).
  exists p. split; [done|].
  rewrite (create_product_present d _ vn vp vs Hn Hpr Hst), Hf, Hi. simpl.
  rewrite next_id_snoc, Hname, <- app_assoc; [done|].
  intros q Hq. rewrite Hid. by apply next_id_above.
Qed.

(** ** Ids in the states the service reaches *)

Lemma ids_by_position_next ps :
  ids_by_position ps → next_id ps = Z.of_nat (length ps) + 1.
Proof.
  intros Hpos. destruct (decide (ps = [])) as [->|Hne]; [done|].
  assert (next_id ps ≤ Z.of_nat (length ps) + 1).
  { destruct (next_id_attained ps Hne) as (q & Hq & ->).
    apply list_elem_of_lookup in Hq as [k Hk].
    rewrite (Hpos k q Hk). apply lookup_lt_Some in Hk. lia. }
  assert (Z.of_nat (length ps) < next_id ps); [|lia].
  destruct ps as [|q0 ps0]; [done|].
  destruct (lookup_lt_is_Some_2 (q0 :: ps0) (length ps0)) as [q Hq];
    [simpl; lia|].
  pose proof (Hpos _ _ Hq) as Hid.
  apply list_elem_of_lookup_2, next_id_above in Hq. simpl length. lia.
Qed.

Lemma ids_by_position_snoc ps p :
  ids_by_position ps → id p = next_id ps → ids_by_position (ps ++ [p]).
Proof.
  intros Hpos Hid k q [[_ Hk]|[-> <-]]%lookup_snoc_Some.
  - by apply Hpos.
  - by rewrite Hid, ids_by_position_next.
Qed.

Lemma ids_by_position_seed : ids_by_position seed_products.
Proof.
  intros k p Hk.
  do 5 (destruct k as [|k]; [by injection Hk as <-|]). done.
Qed.

Lemma run_ids_by_position rs st :
  ids_by_position (products st) →
  ids_by_position (products (snd (run rs st))).
Proof.
  revert st. induction rs as [|r rs IH]; intros st Hpos; [done|].
  rewrite run_cons. simpl. apply IH.
  destruct (handle_cases r st) as [(p & _ & -> & Hid)|[_ ->]]; [|done].
  by apply ids_by_position_snoc.
Qed.

(** X8: in every state the service reaches from the seeded one, the
    record at position k (from 0) has id k + 1: the ids are 1, 2, ...
    up to the count, with no gap, and the next create gets the count
    plus one. *)
Theorem ids_contiguous rs t0 :
  ids_by_position (products (snd (run rs (init t0)))) ∧
  next_id (products (snd (run rs (init t0)))) =
    Z.of_nat (length (products (snd (run rs (init t0))))) + 1.
Proof.
  assert (ids_by_position (products (snd (run rs (init t0))))) as Hpos
    by apply run_ids_by_position, ids_by_position_seed.
  split; [done|]. by apply ids_by_position_next.
Qed.

(** ** What is answered *)



(** ** What the create endpoint does not check *)

(** X10: beyond presence and convertibility nothing is validated: with
    any object at all as name (even [null]), any float as price and any
    integer as stock (negative ones too), the body is accepted and the
    three are stored as they came. *)
Theorem create_product_unvalidated d st vn f n :
  d !! "name" = Some vn →
  d !! "price" = Some (VFloat f) →
  d !! "stock" = Some (VInt n) →
  create_product (VDict d) st =
  (created_response (Product (next_id (products st)) vn f n),
   State (products st ++ [Product (next_id (products st)) vn f n])
         (app_state st)).
Proof.
  intros Hn Hp Hs.
  by rewrite (create_product_present d st vn (VFloat f) (VInt n) Hn Hp Hs).
Qed.

(** X11: a stock given as a finite float [(-1)^s * m * 2^e] is accepted
    and stored cut towards zero: the stored stock has the float's sign and
    its magnitude [a] is the whole part, [a <= m * 2^e < a + 1]. *)
Theorem create_product_fractional_stock d st vn vp f s m e :
  d !! "name" = Some vn →
  d !! "price" = Some vp →
  py_float vp = Ok f →
  d !! "stock" = Some (VFloat (S754_finite s m e)) →
  ∃ a,
    create_product (VDict d) st =
    (created_response
       (Product (next_id (products st)) vn f (if s then - a else a)),
     State (products st ++
              [Product (next_id (products st)) vn f (if s then - a else a)])
           (app_state st)) ∧
    (0 ≤ e → a = Z.pos m * 2 ^ e) ∧
    (e < 0 → a * 2 ^ (- e) ≤ Z.pos m < (a + 1) * 2 ^ (- e)).
Proof.
  intros Hn Hp Hf Hs. exists (Z.shiftl (Z.pos m) e).
  rewrite (create_product_present d st vn vp _ Hn Hp Hs), Hf.
  split; [done|]. split.
  - intros He. by apply Z.shiftl_mul_pow2.
  - intros He. rewrite Z.shiftl_div_pow2 by lia.
    assert (0 < 2 ^ (- e)) as Hpow by (apply Z.pow_pos_nonneg; lia).
    pose proof (Z.div_mod (Z.pos m) (2 ^ (- e))) as Hdm.
    pose proof (Z.mod_pos_bound (Z.pos m) (2 ^ (- e)) Hpow) as Hb.
    nia.
Qed.

(** ** Configuration *)

(** X12: the server is started on host 0.0.0.0; without a PORT variable
    the port is 5000, and a PORT that [int] rejects makes loading the
    module raise [ValueError]; debug mode is on exactly when ENVIRONMENT
    is unset or is the string "development". *)
Theorem run_args_spec environ :
  (environ !! "PORT" = None →
   ∃ dbg, run_args environ = Ok ("0.0.0.0", 5000, dbg)) ∧
  (∀ s, environ !! "PORT" = Some s → int_of_str s = None →
        run_args environ = Raise ValueError) ∧
  (∀ host port dbg,
     run_args environ = Ok (host, port, dbg) →
     host = "0.0.0.0" ∧
     (dbg = true ↔ environ !! "ENVIRONMENT" = None ∨
                   environ !! "ENVIRONMENT" = Some "development")).
Proof.
  unfold run_args, PORT, ENV, getenv. split; [|split].
  - intros ->. simpl. eauto.
  - intros s -> Hs. simpl. by rewrite Hs.
  - intros host port dbg Hargs.
    destruct (py_int _) as [n|]; simpl in Hargs; [|done].
    injection Hargs as <- <- <-. split; [done|].
    destruct (environ !! "ENVIRONMENT") as [s|]; simpl.
    + rewrite bool_decide_eq_true. split; [intros ->; by right|].
      by intros [|[= ->]].
    + split; [by left|done].
Qed.

(** ** Metrics *)

(** X13: the products_total gauge of GET /metrics is the count that
    GET /api/products reports: the metrics text, answered 200 as
    text/plain, has the line [products_total n] for that count n. *)
Theorem metrics_products_total now rnd st :
  ∃ (n : nat) text,
    reported_count st = Some (VInt (Z.of_nat n)) ∧
    fst (metrics now rnd st) =
      Returned (Resp (Text text) 200 [("Content-Type", "text/plain")]) ∧
    occurs_in (newline +:+ "products_total " +:+ pretty n +:+ newline) text.
Proof.
  exists (length (products st)). eexists.
  split; [apply reported_count_length|]. split; [reflexivity|].
  do 19 apply occurs_in_app_r. apply occurs_in_prefix4.
Qed.

End more_properties.

(** ** The further properties on concrete requests *)

Lemma odd_fields_lookup :
  odd_fields !! "name" = Some VNone ∧
  odd_fields !! "price" =
    Some (VFloat (S754_finite true 6755399441055744 (-52))) ∧
  odd_fields !! "stock" = Some (VInt (-3)).
Proof. by repeat split. Qed.

Lemma frac_stock_fields_lookup :
  frac_stock_fields !! "name" = Some (VStr "Pen") ∧
  frac_stock_fields !! "price" = Some (VFloat (float_lit 199 2)) ∧
  frac_stock_fields !! "stock" =
    Some (VFloat (S754_finite false 5629499534213120 (-51))).
Proof. by repeat split. Qed.

(** X1 on the body [null]. *)
Lemma create_product_scalar_body_null :
  create_product (RT := test_runtime) VNone test_init =
  (Raised TypeError, test_init).
Proof.
  exact (create_product_scalar_body (RT := test_runtime) VNone test_init
           (or_introl eq_refl)).
Defined.

(** X5 on the create scenario: the pen is found under id 6. *)
Lemma create_then_get_pen :
  ∃ p, created_response pen = created_response p ∧
       fst (get_product (RT := test_runtime) (id p) test_init_pen) =
       found_response p.
Proof.
  exact (create_then_get (RT := test_runtime) pen_body test_init
           (created_response pen) test_init_pen test_pen_created eq_refl).
Defined.

(** X6: the laptop is still answered under id 1 after the pen is
    created. *)
Lemma lookup_stable_laptop :
  fst (get_product (RT := test_runtime) 1
         (snd (run (RT := test_runtime)
                 [POST_products (RT := test_runtime) pen_body] test_init))) =
  found_response laptop.
Proof.
  exact (lookup_stable (RT := test_runtime)
           [POST_products (RT := test_runtime) pen_body] test_init 1 laptop
           eq_refl).
Defined.

(** X7 on the create scenario: a second pen gets id 7. *)
Lemma create_twice_pen :
  ∃ p, created_response pen = created_response p ∧
       create_product (RT := test_runtime) pen_body test_init_pen =
         (created_response (Product (id p + 1) (name p) (price p) (stock p)),
          State (RT := test_runtime)
                (products test_init ++
                   [p; Product (id p + 1) (name p) (price p) (stock p)])
                (app_state test_init)).
Proof.
  exact (create_twice (RT := test_runtime) pen_body test_init
           (created_response pen) test_init_pen test_pen_created eq_refl).
Defined.

(** X10 on [{"name": null, "price": -1.5, "stock": -3}]. *)
Lemma create_product_unvalidated_odd :
  create_product (RT := test_runtime) (VDict odd_fields) test_init =
  (created_response
     (Product (next_id (products test_init)) VNone
              (S754_finite true 6755399441055744 (-52)) (-3)),
   State (RT := test_runtime)
         (products test_init ++
            [Product (next_id (products test_init)) VNone
                     (S754_finite true 6755399441055744 (-52)) (-3)])
         (app_state test_init)).
Proof.
  exact (create_product_unvalidated (RT := test_runtime) odd_fields test_init
           VNone (S754_finite true 6755399441055744 (-52)) (-3)
           (proj1 odd_fields_lookup)
           (proj1 (proj2 odd_fields_lookup))
           (proj2 (proj2 odd_fields_lookup))).
Defined.

(** X11 on a stock of 2.5, which is stored as 2. *)
Lemma create_product_fractional_stock_two_and_a_half :
  ∃ a,
    create_product (RT := test_runtime) (VDict frac_stock_fields) test_init =
    (created_response
       (Product (next_id (products test_init)) (VStr "Pen")
                (float_lit 199 2) (if false then - a else a)),
     State (RT := test_runtime)
           (products test_init ++
              [Product (next_id (products test_init)) (VStr "Pen")
                       (float_lit 199 2) (if false then - a else a)])
           (app_state test_init)) ∧
    (0 ≤ -51 → a = 5629499534213120 * 2 ^ (-51)) ∧
    (-51 < 0 →
     a * 2 ^ (- (-51)) ≤ 5629499534213120 < (a + 1) * 2 ^ (- (-51))).
Proof.
  exact (create_product_fractional_stock (RT := test_runtime)
           frac_stock_fields test_init (VStr "Pen")
           (VFloat (float_lit 199 2)) (float_lit 199 2)
           false 5629499534213120 (-51)
           (proj1 frac_stock_fields_lookup)
           (proj1 (proj2 frac_stock_fields_lookup))
           eq_refl
           (proj2 (proj2 frac_stock_fields_lookup))).
Defined.
